(** * pocket-sync: the layout shell, the core info panel and the recoil atoms

    A shallow embedding of
      - [src/components/layout/index.tsx]      (module [LayoutShell]),
      - [src/components/cores/info/index.tsx]  (module [CoreInfoPanel]),
      - [src/recoil/atoms.ts]                  (module [Atoms]).

    A component is a function from its props, its hook values and its local
    state to the React element it returns.  Elements are JavaScript values:
    an element has a type (host tag or component), props and children, and
    its children are again JavaScript values ([false], strings, elements). *)

From Stdlib Require Import ZArith List String Ascii Bool Lia.
From stdpp Require Import gmap strings.
Import ListNotations.
Local Open Scope string_scope.
Local Open Scope list_scope.
Local Open Scope Z_scope.

(** ** JavaScript values and React elements *)

Module JS.

(** What a JSX tag names: a host element ([<div>]) or a component
    ([<Suspense>], [<Screenshots>]).  Components of other files are not
    unfolded: they stay in the tree as elements. *)
Inductive tag : Type :=
| Host (name : string)
| Comp (name : string).

(** Values that occur in the rendered trees.  [F] is the type of the function
    values (event handlers); numbers are the integers the panels handle. *)
#[local] Unset Elimination Schemes.
Inductive val (F : Type) : Type :=
| VUndefined
| VNull
| VBool (b : bool)
| VNum (n : Z)
| VStr (s : string)
| VFun (f : F)
| VArr (items : list (val F))
| VObj (fields : list (string * val F))
| VElem (t : tag) (props : list (string * val F)) (children : list (val F)).

#[local] Set Elimination Schemes.

Arguments VUndefined {F}.
Arguments VNull {F}.
Arguments VBool {F} b.
Arguments VNum {F} n.
Arguments VStr {F} s.
Arguments VFun {F} f.
Arguments VArr {F} items.
Arguments VObj {F} fields.
Arguments VElem {F} t props children.

Section Values.
Context {F : Type}.

(** [ToBoolean]: [undefined], [null], [false], [0] and [""] are falsy. *)
Definition truthy (v : val F) : bool :=
  match v with
  | VUndefined | VNull => false
  | VBool b => b
  | VNum n => negb (n =? 0)
  | VStr s => negb (String.eqb s "")
  | VFun _ | VArr _ | VObj _ | VElem _ _ _ => true
  end.

(** [a && b] once both operands are values: the left one when it is falsy,
    the right one otherwise. *)
Definition and_ (a b : val F) : val F := if truthy a then b else a.

(** An optional string field read from a record.  A field that is absent
    and a field that is [null] are one case here, written [undefined]: both
    are falsy and React skips both. *)
Definition of_opt_string (o : option string) : val F :=
  match o with
  | Some s => VStr s
  | None => VUndefined
  end.

(** Property lookup on a props list or an object literal. *)
Fixpoint prop (k : string) (ps : list (string * val F)) : option (val F) :=
  match ps with
  | [] => None
  | (k', v) :: ps' => if String.eqb k k' then Some v else prop k ps'
  end.

Definition props_of (v : val F) : list (string * val F) :=
  match v with
  | VElem _ ps _ => ps
  | _ => []
  end.

Definition children_of (v : val F) : list (val F) :=
  match v with
  | VElem _ _ cs => cs
  | _ => []
  end.

Definition is_host (name : string) (v : val F) : bool :=
  match v with
  | VElem (Host n) _ _ => String.eqb n name
  | _ => false
  end.

Definition is_comp (name : string) (v : val F) : bool :=
  match v with
  | VElem (Comp n) _ _ => String.eqb n name
  | _ => false
  end.

Definition className (v : val F) : string :=
  match prop "className" (props_of v) with
  | Some (VStr s) => s
  | _ => ""
  end.

(** The class names of a [className] attribute: its space separated words. *)
Fixpoint words_from (cur : string) (s : string) : list string :=
  match s with
  | EmptyString => if String.eqb cur "" then [] else [cur]
  | String c s' =>
      if Ascii.eqb c " "%char
      then (if String.eqb cur "" then [] else [cur]) ++ words_from "" s'
      else words_from (String.append cur (String c "")) s'
  end.

Definition classes (v : val F) : list string := words_from "" (className v).

Definition has_class (c : string) (v : val F) : bool :=
  existsb (String.eqb c) (classes v).

(** Every element of a tree, the root included, in document order.  An array
    child ([{xs.map(...)}]) contributes the elements of its items. *)
Fixpoint elements (v : val F) : list (val F) :=
  let fix go (l : list (val F)) : list (val F) :=
    match l with
    | [] => []
    | c :: l' => elements c ++ go l'
    end in
  match v with
  | VElem t ps cs => v :: go cs
  | VArr items => go items
  | _ => []
  end.

(** The elements of a tree that are host elements (components) of a given
    name. *)
Definition hosts (name : string) (tree : val F) : list (val F) :=
  List.filter (is_host name) (elements tree).

Definition comps (name : string) (tree : val F) : list (val F) :=
  List.filter (is_comp name) (elements tree).

(** The React key of an element. *)
Definition key_of (v : val F) : option string :=
  match prop "key" (props_of v) with
  | Some (VStr s) => Some s
  | _ => None
  end.

(** Every function value held anywhere in a value: in props, in object
    fields, in array items and in children. *)
Fixpoint functions (v : val F) : list F :=
  let fix in_items (l : list (val F)) : list F :=
    match l with
    | [] => []
    | c :: l' => functions c ++ in_items l'
    end in
  let fix in_fields (l : list (string * val F)) : list F :=
    match l with
    | [] => []
    | p :: l' => (match p with (_, x) => functions x end) ++ in_fields l'
    end in
  match v with
  | VFun f => [f]
  | VArr items => in_items items
  | VObj fields => in_fields fields
  | VElem _ ps cs => in_fields ps ++ in_items cs
  | _ => []
  end.

Section Suspense.
(** Which components are still waiting for their data. *)
Variable pending : string -> bool.

(** Does rendering [v] suspend up to the enclosing boundary?  A component
    that is waiting does; a host element or an array does when one of its
    children does; a [<Suspense>] catches what happens below it. *)
Fixpoint suspends (v : val F) : bool :=
  let fix any (l : list (val F)) : bool :=
    match l with
    | [] => false
    | c :: l' => suspends c || any l'
    end in
  match v with
  | VElem (Comp n) _ _ => if String.eqb n "Suspense" then false else pending n
  | VElem (Host _) _ cs => any cs
  | VArr items => any items
  | _ => false
  end.

(** What a child contributes to its parent in the DOM: nothing for the
    values React skips ([undefined], [null], booleans, the empty string);
    its items' contributions for an array; for a [<Suspense>] boundary, what
    its children contribute, or its fallback while one of them suspends; the
    node itself otherwise.  A component that waits under no boundary of the
    tree stays in place: its suspension is for a boundary further up. *)
Fixpoint shown (v : val F) : list (val F) :=
  let fix go (l : list (val F)) : list (val F) :=
    match l with
    | [] => []
    | c :: l' => shown c ++ go l'
    end in
  match v with
  | VUndefined | VNull | VBool _ => []
  | VStr s => if String.eqb s "" then [] else [v]
  | VArr items => go items
  | VElem (Comp n) ps cs =>
      if String.eqb n "Suspense" then
        if existsb suspends cs
        then (fix fb (l : list (string * val F)) : list (val F) :=
                match l with
                | [] => []
                | (k, x) :: l' =>
                    if String.eqb "fallback" k then shown x else fb l'
                end) ps
        else go cs
      else [v]
  | _ => [v]
  end.

(** The DOM children of an element. *)
Definition dom_children (v : val F) : list (val F) :=
  flat_map shown (children_of v).

End Suspense.
End Values.
End JS.

(** ** The layout shell: [src/components/layout/index.tsx] *)

Module LayoutShell.
Import JS.

(** The one function value of the component: [() => setViewName(v)]. *)
Inductive handler : Type :=
| SetViewName (v : string).

Definition views : list string := ["Games"; "Cores"; "Screenshots"; "Saves"].

(** [useState("")]: the first value of [viewName]. *)
Definition initial_viewName : string := "".

(** The body of [views.map((v) => ...)]. *)
Definition menu_item (viewName v : string) : val handler :=
  VElem (Host "div")
    [ ("className",
       VStr (String.append "layout__sidebar-menu-item "
               (if String.eqb viewName v
                then "layout__sidebar-menu-item--active" else "")));
      ("key", VStr v);
      ("onClick", VFun (SetViewName v)) ]
    [ VStr v ].

(** What [Layout] returns when its state is [viewName]. *)
Definition Layout (viewName : string) : val handler :=
  VElem (Host "div") [ ("className", VStr "layout") ]
    [ VElem (Host "div") [ ("className", VStr "layout__sidebar-menu") ]
        [ VArr (map (menu_item viewName) views) ];
      VElem (Host "div") [ ("className", VStr "layout__content") ]
        [ VElem (Comp "Suspense")
            [ ("fallback", VElem (Comp "Loader") [] []) ]
            [ and_ (VBool (String.eqb viewName "Screenshots"))
                   (VElem (Comp "Screenshots") [] []) ] ] ].

(** Calling a handler: [setViewName(v)] replaces the state. *)
Definition run (h : handler) (viewName : string) : string :=
  match h with
  | SetViewName v => v
  end.

Definition onClick (e : val handler) : option handler :=
  match prop "onClick" (props_of e) with
  | Some (VFun h) => Some h
  | _ => None
  end.

(** The text of an element whose only child is a string. *)
Definition label (e : val handler) : option string :=
  match children_of e with
  | [VStr s] => Some s
  | _ => None
  end.

Definition has_label (l : string) (e : val handler) : bool :=
  match label e with
  | Some s => String.eqb s l
  | None => false
  end.

Definition menu_items (tree : val handler) : list (val handler) :=
  List.filter (has_class "layout__sidebar-menu-item") (elements tree).

Definition active (e : val handler) : bool :=
  has_class "layout__sidebar-menu-item--active" e.

Definition content_region (tree : val handler) : option (val handler) :=
  find (has_class "layout__content") (elements tree).

(** A click on the menu entry that shows the text [l]: its [onClick] runs.
    Without such an entry there is nothing to click. *)
Definition click (l : string) (viewName : string) : string :=
  match find (has_label l) (menu_items (Layout viewName)) with
  | Some e =>
      match onClick e with
      | Some h => run h viewName
      | None => viewName
      end
  | None => viewName
  end.

(** One event: some element of the rendered tree that carries an [onClick]
    is clicked. *)
Inductive step (viewName : string) : string -> Prop :=
| step_click e h :
    In e (elements (Layout viewName)) ->
    onClick e = Some h ->
    step viewName (run h viewName).

(** The states the component can be in: the first one, and those a click
    leads to. *)
Inductive reachable : string -> Prop :=
| reach_initial : reachable initial_viewName
| reach_step s s' : reachable s -> step s s' -> reachable s'.

(** The states that follow [s] after zero or more clicks. *)
Inductive steps (s : string) : string -> Prop :=
| steps_refl : steps s s
| steps_next s' s'' : steps s s' -> step s' s'' -> steps s s''.

(** A sequence of clicks on menu labels, first to last. *)
Definition clicks (ls : list string) (viewName : string) : string :=
  fold_left (fun s l => click l s) ls viewName.

End LayoutShell.

(** ** The recoil atoms: [src/recoil/atoms.ts] *)

Module Atoms.

Inductive colour : Type := black | white.

(** The values the atoms of this file hold. *)
Inductive value : Type :=
| Path (p : option string)
| Number (n : Z)
| Colour (c : colour).

(** [atom<T>({ key, default })]. *)
Record atom : Type := { key : string; default : value }.

(** The atoms' values, by key; an atom that was never set has none. *)
Abbreviation store := (gmap string value).

Section Load.
(** The three readings of [Date.now()] taken when the module is loaded. *)
Variables (t_fs t_inv t_cfg : Z).

Definition pocketPathAtom : atom :=
  {| key := "pocketPathAtom"; default := Path None |}.

Definition fileSystemInvalidationAtom : atom :=
  {| key := "fileSystemInvalidationAtom"; default := Number t_fs |}.

Definition PocketModelColourAtom : atom :=
  {| key := "PocketModelColourAtom"; default := Colour black |}.

Definition iventoryInvalidationAtom : atom :=
  {| key := "iventoryInvalidationAtom"; default := Number t_inv |}.

Definition configInvalidationAtom : atom :=
  {| key := "configInvalidationAtom"; default := Number t_cfg |}.

(** The three invalidation counters. *)
Inductive counter : Type := FileSystem | Inventory | Config.

Definition atom_of (c : counter) : atom :=
  match c with
  | FileSystem => fileSystemInvalidationAtom
  | Inventory => iventoryInvalidationAtom
  | Config => configInvalidationAtom
  end.

(** Reading an atom: its value in the store, its default when unset. *)
Definition get (a : atom) (s : store) : value :=
  match s !! key a with
  | Some v => v
  | None => default a
  end.

(** Writing an atom replaces the value under its key. *)
Definition set (a : atom) (v : value) (s : store) : store :=
  <[key a := v]> s.

Definition as_number (v : value) : Z :=
  match v with
  | Number n => n
  | _ => 0
  end.

Definition read (c : counter) (s : store) : Z := as_number (get (atom_of c) s).

(** Every atom of this file that is not the counter [c]. *)
Definition others (c : counter) : list atom :=
  List.filter (fun a => negb (String.eqb (key a) (key (atom_of c))))
    [ pocketPathAtom; fileSystemInvalidationAtom; PocketModelColourAtom;
      iventoryInvalidationAtom; configInvalidationAtom ].

(** Modelled from the spec: the bump of an invalidation counter.  The
    writers of the three atoms are missing: [atoms.ts] only declares the
    atoms.  The spec describes the counters as monotonically-replaced
    timestamps: a bump replaces the value of one counter by a timestamp
    later than the one it held. *)
Inductive bump (c : counter) (s : store) : store -> Prop :=
| bump_to (t : Z) :
    read c s < t ->
    bump c s (set (atom_of c) (Number t) s).

(** The atoms this file declares, in the order of the file. *)
Definition all_atoms : list atom :=
  [ pocketPathAtom; fileSystemInvalidationAtom; PocketModelColourAtom;
    iventoryInvalidationAtom; configInvalidationAtom ].

End Load.
End Atoms.

(** ** The core info panel: [src/components/cores/info/index.tsx] *)

Module CoreInfoPanel.
Import JS.

(** Modelled from the spec: the record types of the core description and of
    the inventory item, whose declarations are missing; the fields are the
    ones the component reads.  The URL and the release date are optional,
    the cartridge adapter is a number. *)
Record Metadata : Type := {
  shortname : string;
  platform_ids : list string;
  description : string;
  author : string;
  url : option string;
  date_release : option string
}.

Record Dock : Type := { supported : bool; analog_output : bool }.

Record Hardware : Type := { cartridge_adapter : Z }.

Record Framework : Type := {
  sleep_supported : bool;
  dock : Dock;
  hardware : Hardware
}.

Record Core : Type := { metadata : Metadata; framework : Framework }.

Record CoreInfoJSON : Type := { core : Core }.

Record Repository : Type := { platform : string }.

Record InventoryItem : Type := { repository : Repository }.

Section Component.
(** The type of the callback [onBack]. *)
Context {F : Type}.

Record CoreInfoProps : Type := { coreName : string; onBack : F }.

Definition of_item (i : InventoryItem) : val F :=
  VObj [ ("repository", VObj [ ("platform", VStr (platform (repository i))) ]) ].

(** [<strong>{text}</strong>]. *)
Definition strong (text : string) : val F :=
  VElem (Host "strong") [] [ VStr text ].

(** [<div className="core-info__info-row">...</div>]. *)
Definition info_row (children : list (val F)) : val F :=
  VElem (Host "div") [ ("className", VStr "core-info__info-row") ] children.

(** [<input readOnly type="checkbox" checked={b} />]. *)
Definition checkbox (b : bool) : val F :=
  VElem (Host "input")
    [ ("readOnly", VBool true); ("type", VStr "checkbox"); ("checked", VBool b) ]
    [].

(** What [CoreInfo] returns, given its props and the values of its three
    hooks. *)
Definition render (props : CoreInfoProps) (coreInfo : CoreInfoJSON)
    (authorImageSrc : string) (inventoryItem : option InventoryItem) : val F :=
  let m := metadata (core coreInfo) in
  let fw := framework (core coreInfo) in
  VElem (Host "div") [ ("className", VStr "core-info") ]
    [ VElem (Comp "Controls")
        [ ("controls",
           VArr [ VObj [ ("type", VStr "back-button");
                         ("text", VStr "Back to list");
                         ("onClick", VFun (onBack props)) ] ]) ]
        [];
      VElem (Host "h3") [ ("className", VStr "core-info__title") ]
        [ VStr (shortname m) ];
      VArr (map (fun platformId =>
                   VElem (Comp "PlatformImage")
                     [ ("className", VStr "core-info__image");
                       ("platformId", VStr platformId);
                       ("key", VStr platformId) ]
                     [])
              (platform_ids m));
      VElem (Host "section") [ ("className", VStr "core-info__info") ]
        [ VElem (Host "p") [] [ VStr (description m) ];
          info_row
            [ strong "Version:";
              VElem (Comp "Version") [ ("coreName", VStr (coreName props)) ] [] ];
          info_row
            [ strong "Author:";
              VElem (Host "div") [ ("className", VStr "core-info__author-tag") ]
                [ VElem (Host "img") [ ("src", VStr authorImageSrc) ] [];
                  VStr (author m) ] ];
          and_ (of_opt_string (url m))
            (info_row
               [ strong "URL:";
                 VElem (Comp "Link") [ ("href", of_opt_string (url m)) ]
                   [ of_opt_string (url m) ] ]);
          and_ (of_opt_string (date_release m))
            (info_row
               [ strong "Release Date:";
                 of_opt_string (date_release m) ]);
          info_row [ strong "Supports Sleep:"; checkbox (sleep_supported fw) ];
          info_row [ strong "Supports Dock:"; checkbox (supported (dock fw)) ];
          info_row
            [ strong "Supports Dock Analog:";
              checkbox (analog_output (dock fw)) ];
          info_row
            [ strong "Supports Cartridges:";
              checkbox (negb (cartridge_adapter (hardware fw) =? -1)) ];
          (* inventoryItem && ... === "github" && <Releases />: without an
             item the chain stops at the item itself, [undefined] *)
          match inventoryItem with
          | None => VUndefined
          | Some item =>
              and_ (VBool (String.eqb (platform (repository item)) "github"))
                   (VElem (Comp "Releases")
                      [ ("inventoryItem", of_item item) ] [])
          end ] ].

(** *** The component and its hooks

    A function component is a program that calls hooks and then returns a
    tree.  What a render may ask of its surroundings: the value of a recoil
    value (a selector of [recoil/selectors], or an atom of [recoil/atoms]),
    the inventory item of a core, the clock, a random number. *)

(** [RecoilValue<T>]: the two selector families the component imports and
    calls, and the atoms.  The selectors are defined in another file; here
    they are names, and the surroundings give their values. *)
Inductive recoil_value : Type -> Type :=
| CoreInfoSelectorFamily (coreName : string) : recoil_value CoreInfoJSON
| CoreAuthorImageSelectorFamily (coreName : string) : recoil_value string
| AtomValue (a : Atoms.atom) : recoil_value Atoms.value.

(** The requests of a render, indexed by the type of the answer. *)
Inductive effect : Type -> Type :=
| UseRecoilValue {T : Type} (v : recoil_value T) : effect T
| UseInventoryItem (coreName : string) : effect (option InventoryItem)
| DateNow : effect Z
| MathRandom : effect Z.

(** A render: it returns, or it makes a request and goes on with the
    answer. *)
Inductive hooks (A : Type) : Type :=
| Return (a : A)
| Request {T : Type} (e : effect T) (k : T -> hooks A).

Arguments Return {A} a.
Arguments Request {A T} e k.

Fixpoint hooks_bind {A B : Type} (f : A -> hooks B) (m : hooks A) : hooks B :=
  match m with
  | Return a => f a
  | Request e k => Request e (fun x => hooks_bind f (k x))
  end.

#[export] Instance hooks_ret : MRet hooks := @Return.
#[export] Instance hooks_mbind : MBind hooks := @hooks_bind.

Definition useRecoilValue {T : Type} (v : recoil_value T) : hooks T :=
  Request (UseRecoilValue v) Return.

Definition useInventoryItem (coreName : string) : hooks (option InventoryItem) :=
  Request (UseInventoryItem coreName) Return.

(** The component [CoreInfo]: its three hook calls, then the tree. *)
Definition CoreInfo (props : CoreInfoProps) : hooks (val F) :=
  coreInfo ← useRecoilValue (CoreInfoSelectorFamily (coreName props));
  authorImageSrc ←
    useRecoilValue (CoreAuthorImageSelectorFamily (coreName props));
  inventoryItem ← useInventoryItem (coreName props);
  mret (render props coreInfo authorImageSrc inventoryItem).

(** One request of a render together with the answer it got. *)
Inductive entry : Type :=
| ReadCoreInfo (coreName : string) (answer : CoreInfoJSON)
| ReadAuthorImage (coreName : string) (answer : string)
| ReadAtom (a : Atoms.atom) (answer : Atoms.value)
| ReadInventoryItem (coreName : string) (answer : option InventoryItem)
| ReadClock (answer : Z)
| ReadRandom (answer : Z).

Definition entry_of {T : Type} (e : effect T) : T -> entry :=
  match e in effect T' return T' -> entry with
  | UseRecoilValue v =>
      match v in recoil_value T' return T' -> entry with
      | CoreInfoSelectorFamily n => ReadCoreInfo n
      | CoreAuthorImageSelectorFamily n => ReadAuthorImage n
      | AtomValue a => ReadAtom a
      end
  | UseInventoryItem n => ReadInventoryItem n
  | DateNow => ReadClock
  | MathRandom => ReadRandom
  end.

(** The surroundings of a render: a state of any type [W], and for each
    request an answer and the state afterwards; the clock and the random
    source may so answer differently each time.  The answers are values:
    the recoil values are taken resolved. *)
Definition surroundings (W : Type) : Type :=
  forall T : Type, effect T -> W -> T * W.

(** Running a render: its result and the log of its requests, in order. *)
Fixpoint run {W A : Type} (h : surroundings W) (m : hooks A) (w : W)
  : A * list entry :=
  match m with
  | Return a => (a, [])
  | Request e k =>
      let '(x, w') := h _ e w in
      let '(a, l) := run h (k x) w' in
      (a, entry_of e x :: l)
  end.

Definition output {W A : Type} (h : surroundings W) (m : hooks A) (w : W) : A :=
  fst (run h m w).

Definition log {W A : Type} (h : surroundings W) (m : hooks A) (w : W)
  : list entry :=
  snd (run h m w).

(** The log of a render that asks for the core description, the author image
    and the inventory item of [coreName], and for nothing else. *)
Definition three_reads (coreName : string) (coreInfo : CoreInfoJSON)
    (authorImageSrc : string) (inventoryItem : option InventoryItem)
  : list entry :=
  [ ReadCoreInfo coreName coreInfo;
    ReadAuthorImage coreName authorImageSrc;
    ReadInventoryItem coreName inventoryItem ].

(** *** Reading the rendered panel *)

Definition info_rows (tree : val F) : list (val F) :=
  List.filter (has_class "core-info__info-row") (elements tree).

(** The caption of a row: the text of the [<strong>] it starts with. *)
Definition caption (row : val F) : option string :=
  match children_of row with
  | VElem (Host "strong") _ [ VStr s ] :: _ => Some s
  | _ => None
  end.

Definition has_caption (c : string) (row : val F) : bool :=
  match caption row with
  | Some s => String.eqb s c
  | None => false
  end.

Definition rows_captioned (c : string) (tree : val F) : list (val F) :=
  List.filter (has_caption c) (info_rows tree).

Definition url_rows : val F -> list (val F) := rows_captioned "URL:".
Definition release_date_rows : val F -> list (val F) :=
  rows_captioned "Release Date:".

Definition is_checkbox (e : val F) : bool :=
  is_host "input" e &&
  match prop "type" (props_of e) with
  | Some (VStr t) => String.eqb t "checkbox"
  | _ => false
  end.

Definition checked (e : val F) : bool :=
  match prop "checked" (props_of e) with
  | Some v => truthy v
  | None => false
  end.

(** The checkboxes of the panel, each with the caption of its row. *)
Definition checkboxes (tree : val F) : list (option string * bool) :=
  flat_map
    (fun row =>
       map (fun e => (caption row, checked e))
           (List.filter is_checkbox (children_of row)))
    (info_rows tree).

(** The states of the checkboxes whose row has the caption [c]. *)
Definition checks (c : string) (tree : val F) : list bool :=
  map snd
    (List.filter (fun cb => match fst cb with
                       | Some s => String.eqb s c
                       | None => false
                       end)
       (checkboxes tree)).

Definition releases_panels (tree : val F) : list (val F) :=
  List.filter (is_comp "Releases") (elements tree).

(** The URL row for the URL [u]: the link shows [u] and leads to [u]. *)
Definition url_row (u : string) : val F :=
  info_row
    [ strong "URL:"; VElem (Comp "Link") [ ("href", VStr u) ] [ VStr u ] ].

(** The release date row for the date [d]. *)
Definition release_date_row (d : string) : val F :=
  info_row [ strong "Release Date:"; VStr d ].

(** The row of the cartridge checkbox. *)
Definition cartridge_row (coreInfo : CoreInfoJSON) : val F :=
  info_row
    [ strong "Supports Cartridges:";
      checkbox
        (negb (cartridge_adapter (hardware (framework (core coreInfo))) =? -1)) ].

(** The releases sub-panel of an inventory item. *)
Definition releases_panel (item : InventoryItem) : val F :=
  VElem (Comp "Releases") [ ("inventoryItem", of_item item) ] [].

(** The [<section>] of the panel, and what it shows in the DOM. *)
Definition info_section (tree : val F) : option (val F) :=
  hd_error (List.filter (has_class "core-info__info") (elements tree)).

Definition section_dom (pending : string -> bool) (tree : val F)
  : option (list (val F)) :=
  option_map (dom_children pending) (info_section tree).

(** The platform image of one platform id. *)
Definition platform_image (platformId : string) : val F :=
  VElem (Comp "PlatformImage")
    [ ("className", VStr "core-info__image");
      ("platformId", VStr platformId);
      ("key", VStr platformId) ]
    [].

Definition platformId_of (e : val F) : option string :=
  match prop "platformId" (props_of e) with
  | Some (VStr s) => Some s
  | _ => None
  end.

(** Is the field shown?  The truthiness of [field] in [field && ...]: it is
    present and not the empty string. *)
Definition shown_field (field : option string) : bool :=
  match field with
  | Some s => negb (String.eqb s "")
  | None => false
  end.

(** The captions of the rows of a core, top to bottom. *)
Definition captions_of (m : Metadata) : list string :=
  [ "Version:"; "Author:" ] ++
  (if shown_field (url m) then [ "URL:" ] else []) ++
  (if shown_field (date_release m) then [ "Release Date:" ] else []) ++
  [ "Supports Sleep:"; "Supports Dock:"; "Supports Dock Analog:";
    "Supports Cartridges:" ].

(** The one control the panel passes to [<Controls>]. *)
Definition back_control (props : CoreInfoProps) : val F :=
  VObj [ ("type", VStr "back-button");
         ("text", VStr "Back to list");
         ("onClick", VFun (onBack props)) ].

End Component.

(** Sample inputs. *)
Definition sample_framework (adapter : Z) : Framework :=
  {| sleep_supported := true;
     dock := {| supported := true; analog_output := false |};
     hardware := {| cartridge_adapter := adapter |} |}.

Definition sample_core (u d : option string) (adapter : Z) : CoreInfoJSON :=
  {| core :=
       {| metadata :=
            {| shortname := "GB"; platform_ids := ["gb"; "gbc"];
               description := "Game Boy"; author := "Spiritualized";
               url := u; date_release := d |};
          framework := sample_framework adapter |} |}.

Definition sample_props : @CoreInfoProps unit :=
  {| coreName := "Spiritualized.GB"; onBack := tt |}.

Definition sample_item (p : string) : InventoryItem :=
  {| repository := {| platform := p |} |}.

(** Sample surroundings whose state is the clock: every request takes
    [tick] milliseconds, atoms have their defaults, and the random source
    answers from [seed]. *)
Definition sample_surroundings (tick seed : Z) : surroundings Z :=
  fun T e now =>
    (match e in effect T' return T' with
     | UseRecoilValue v =>
         match v in recoil_value T' return T' with
         | CoreInfoSelectorFamily _ => sample_core None (Some "2022-09-11") 0
         | CoreAuthorImageSelectorFamily _ => "author.png"
         | AtomValue a => Atoms.default a
         end
     | UseInventoryItem _ => Some (sample_item "github")
     | DateNow => now
     | MathRandom => (seed * now) mod 1000
     end,
     now + tick).

End CoreInfoPanel.

(** ** Walking a tree *)

Module JSFacts.
Import JS.

Section Elements.
Context {F : Type}.

Lemma elements_VElem (t : tag) (ps : list (string * val F)) (cs : list (val F)) :
  elements (VElem t ps cs) = VElem t ps cs :: flat_map elements cs.
Proof. reflexivity. Qed.

Lemma elements_VArr (items : list (val F)) :
  elements (VArr items) = flat_map elements items.
Proof. reflexivity. Qed.

End Elements.
End JSFacts.

(** ** Properties of the layout shell *)

Module LayoutFacts.
Import JS JSFacts LayoutShell.

(** Case analysis on which of the four labels the state equals; it fixes
    every class attribute of the tree. *)
Ltac split_viewName s :=
  destruct (String.eqb s "Games"), (String.eqb s "Cores"),
           (String.eqb s "Screenshots"), (String.eqb s "Saves").

Lemma menu_items_Layout (s : string) :
  menu_items (Layout s) = map (menu_item s) views.
Proof.
  unfold menu_items, Layout, views, menu_item. simpl map.
  split_viewName s; reflexivity.
Qed.

Lemma active_menu_item (s v : string) :
  active (menu_item s v) = String.eqb s v.
Proof.
  unfold active, menu_item. destruct (String.eqb s v); reflexivity.
Qed.

Lemma label_menu_item (s v : string) : label (menu_item s v) = Some v.
Proof. reflexivity. Qed.

Lemma onClick_menu_item (s v : string) :
  onClick (menu_item s v) = Some (SetViewName v).
Proof. reflexivity. Qed.

Lemma click_view (v s : string) : In v views -> click v s = v.
Proof.
  intros Hv. unfold click. rewrite menu_items_Layout.
  simpl in Hv. destruct Hv as [<-|[<-|[<-|[<-|[]]]]]; reflexivity.
Qed.

Lemma content_region_Layout (s : string) :
  content_region (Layout s) =
  Some (VElem (Host "div") [ ("className", VStr "layout__content") ]
          [ VElem (Comp "Suspense")
              [ ("fallback", VElem (Comp "Loader") [] []) ]
              [ and_ (VBool (String.eqb s "Screenshots"))
                     (VElem (Comp "Screenshots") [] []) ] ]).
Proof.
  unfold content_region, Layout, views, menu_item. simpl map.
  split_viewName s; reflexivity.
Qed.

Lemma step_views (s s' : string) : step s s' -> In s' views.
Proof.
  intros [e h He Hh].
  unfold Layout, views, menu_item in He. simpl map in He.
  destruct (String.eqb s "Screenshots"); simpl in He;
    repeat (destruct He as [<- | He];
            [ first [ discriminate Hh
                    | injection Hh as <-; simpl; tauto ] | ]);
    destruct He.
Qed.

Lemma views_not_empty (s : string) : In s views -> s <> "".
Proof.
  simpl. intros [<-|[<-|[<-|[<-|[]]]]]; discriminate.
Qed.

(** C2. Clicking one of the four menu labels sets the active view to exactly
    that label; in the menu rendered afterwards an entry is marked active
    exactly when its text is that label, so only that entry is; and a second
    click on the same label leaves the state as it is. *)
Theorem click_sets_and_marks_view (v s : string) :
  In v views ->
  click v s = v /\
  (forall e, In e (menu_items (Layout (click v s))) ->
             (active e = true <-> label e = Some v)) /\
  map label (List.filter active (menu_items (Layout (click v s)))) = [Some v] /\
  click v (click v s) = click v s.
Proof.
  intros Hv. rewrite !click_view by (rewrite ?click_view; assumption).
  repeat split.
  - rewrite menu_items_Layout in H. apply in_map_iff in H as [w [<- _]].
    rewrite active_menu_item, label_menu_item.
    intros ->%String.eqb_eq. reflexivity.
  - rewrite menu_items_Layout in H. apply in_map_iff in H as [w [<- _]].
    rewrite active_menu_item, label_menu_item.
    intros [= ->]. apply String.eqb_refl.
  - rewrite menu_items_Layout.
    simpl in Hv. destruct Hv as [<-|[<-|[<-|[<-|[]]]]]; reflexivity.
Qed.

Lemma click_sets_and_marks_view_witness :
  In "Cores" views /\
  click "Cores" "" = "Cores" /\
  map label (List.filter active (menu_items (Layout (click "Cores" "")))) =
    [Some "Cores"] /\
  click "Cores" (click "Cores" "") = click "Cores" "".
Proof.
  assert (Hv : In "Cores" views) by (simpl; tauto).
  destruct (click_sets_and_marks_view "Cores" "" Hv) as (H1 & _ & H3 & H4).
  exact (conj Hv (conj H1 (conj H3 H4))).
Defined.

(** C3. The selection state starts as the empty string, and in that first
    state, as in every state other than "Screenshots", the content region has
    no DOM children, whatever is still loading. *)
Theorem content_empty_unless_Screenshots (pending : string -> bool) (s : string) :
  s = initial_viewName \/ s <> "Screenshots" ->
  initial_viewName = "" /\
  option_map (dom_children pending) (content_region (Layout s)) = Some [].
Proof.
  intros Hs. split; [reflexivity|].
  assert (Hneq : String.eqb s "Screenshots" = false).
  { destruct Hs as [-> | Hs]; [reflexivity | now apply String.eqb_neq]. }
  rewrite content_region_Layout, Hneq. reflexivity.
Qed.

Lemma content_empty_unless_Screenshots_witness :
  "Cores" <> "Screenshots" /\
  option_map (dom_children (fun _ => true)) (content_region (Layout "Cores")) =
    Some [].
Proof.
  assert (Hs : "Cores" <> "Screenshots") by discriminate.
  split; [exact Hs|].
  exact (proj2 (content_empty_unless_Screenshots (fun _ => true) "Cores"
                  (or_intror Hs))).
Defined.

Lemma steps_views (s s' : string) : steps s s' -> In s views -> In s' views.
Proof.
  induction 1 as [| s' s'' _ _ Hstep]; intros Hs; [assumption|].
  exact (step_views _ _ Hstep).
Qed.

(** C8. Every reachable state of the layout is the empty string or one of
    "Games", "Cores", "Screenshots", "Saves"; and after a click, whatever
    clicks follow, the state is one of the four labels and so never the
    empty string again. *)
Theorem viewName_invariant (s s' s'' : string) :
  (reachable s -> s = "" \/ In s views) /\
  (step s s' -> steps s' s'' -> In s'' views /\ s'' <> "").
Proof.
  split.
  - induction 1 as [| r r' _ _ Hstep].
    + left. reflexivity.
    + right. exact (step_views _ _ Hstep).
  - intros Hstep Hsteps.
    assert (Hin : In s'' views)
      by (eapply steps_views; [exact Hsteps | exact (step_views _ _ Hstep)]).
    split; [exact Hin | exact (views_not_empty _ Hin)].
Qed.

(** A click on a menu label is an event of the rendered tree. *)
Lemma click_is_step (l s : string) : In l views -> step s (click l s).
Proof.
  intros Hl. rewrite (click_view l s Hl).
  apply (step_click s (menu_item s l) (SetViewName l)); [|reflexivity].
  simpl in Hl. destruct Hl as [<-|[<-|[<-|[<-|[]]]]]; simpl; tauto.
Qed.

Lemma step_is_click (s s' : string) :
  step s s' -> exists l, In l views /\ s' = click l s.
Proof.
  intros Hstep. exists s'. pose proof (step_views _ _ Hstep) as Hin.
  split; [exact Hin | symmetry; exact (click_view s' s Hin)].
Qed.

Example click_Cores : click "Cores" initial_viewName = "Cores".
Proof. reflexivity. Qed.

Example click_unknown_label : click "Settings" "Cores" = "Cores".
Proof. reflexivity. Qed.

Example Screenshots_ready :
  option_map (dom_children (fun _ => false))
    (content_region (Layout "Screenshots")) =
  Some [ VElem (Comp "Screenshots") [] [] ].
Proof. reflexivity. Qed.

Example Screenshots_loading :
  option_map (dom_children (String.eqb "Screenshots"))
    (content_region (Layout "Screenshots")) =
  Some [ VElem (Comp "Loader") [] [] ].
Proof. reflexivity. Qed.

Example active_class_of_Saves :
  map className (menu_items (Layout "Saves")) =
  [ "layout__sidebar-menu-item "; "layout__sidebar-menu-item ";
    "layout__sidebar-menu-item ";
    "layout__sidebar-menu-item layout__sidebar-menu-item--active" ].
Proof. reflexivity. Qed.

Lemma viewName_invariant_witness :
  reachable "Cores" /\ step "" "Cores" /\ steps "Cores" "Saves" /\
  ("Cores" = "" \/ In "Cores" views) /\ In "Saves" views /\ "Saves" <> "".
Proof.
  assert (H1 : step "" "Cores").
  { apply (step_click "" (menu_item "" "Cores") (SetViewName "Cores"));
      [simpl; tauto | reflexivity]. }
  assert (H2 : steps "Cores" "Saves").
  { apply (steps_next _ "Cores"); [apply steps_refl|].
    apply (step_click "Cores" (menu_item "Cores" "Saves") (SetViewName "Saves"));
      [simpl; tauto | reflexivity]. }
  assert (H0 : reachable "Cores") by exact (reach_step _ _ reach_initial H1).
  destruct (viewName_invariant "Cores" "Cores" "Saves") as [Ha _].
  destruct (viewName_invariant "" "Cores" "Saves") as [_ Hb].
  exact (conj H0 (conj H1 (conj H2 (conj (Ha H0) (Hb H1 H2))))).
Defined.

End LayoutFacts.

(** ** Properties of the core info panel *)

Module CoreInfoFacts.
Import JS JSFacts CoreInfoPanel.

Section Panel.
Context {F : Type}.
Implicit Types (props : @CoreInfoProps F) (coreInfo : CoreInfoJSON)
  (authorImageSrc : string) (inventoryItem : option InventoryItem).

(** Selecting elements of a tree whose root has four children, the third of
    them an array. *)
Lemma filter_elements_split (P : val F -> bool) (root a b sec : val F)
    (t : tag) (ps : list (string * val F)) (imgs : list (val F)) :
  root = VElem t ps [a; b; VArr imgs; sec] ->
  List.filter P (elements root) =
  List.filter P [root] ++ List.filter P (elements a) ++ List.filter P (elements b) ++
  List.filter P (flat_map elements imgs) ++ List.filter P (elements sec).
Proof.
  intros ->.
  change (elements (VElem t ps [a; b; VArr imgs; sec]))
    with ([VElem t ps [a; b; VArr imgs; sec]] ++ elements a ++ elements b ++
          flat_map elements imgs ++ elements sec ++ []).
  now rewrite app_nil_r, !List.filter_app.
Qed.

(** An array of childless elements that [P] rejects contributes nothing. *)
Lemma filter_elements_map (P : val F -> bool) (f : string -> val F)
    (ids : list string) :
  (forall id, elements (f id) = [f id]) ->
  (forall id, P (f id) = false) ->
  List.filter P (flat_map elements (map f ids)) = [].
Proof.
  intros Hel HP. induction ids as [| id ids IH]; simpl; [reflexivity|].
  now rewrite Hel, List.filter_app, IH, app_nil_r; simpl; rewrite HP.
Qed.

Ltac select_in_render :=
  match goal with
  | |- context [List.filter ?P (elements (render ?p ?ci ?img ?inv))] =>
      rewrite (filter_elements_split P (render p ci img inv) _ _ _ _ _ _ eq_refl);
      rewrite filter_elements_map by (intros; reflexivity)
  end.

Ltac by_cases_on_fields coreInfo inventoryItem :=
  let pl := fresh "pl" in
  let Hpl := fresh "Hpl" in
  let u := fresh "u" in
  let dr := fresh "dr" in
  destruct coreInfo as [[[? ? ? ? u dr] [? [? ?] [?]]]];
  destruct inventoryItem as [[[pl]]|];
  [destruct (String.eqb pl "github") eqn:Hpl|];
  destruct u as [[|? ?]|], dr as [[|? ?]|];
  simpl; try rewrite Hpl; try reflexivity.

Lemma url_rows_render props coreInfo authorImageSrc inventoryItem :
  url_rows (render props coreInfo authorImageSrc inventoryItem) =
  match url (metadata (core coreInfo)) with
  | Some u => if String.eqb u "" then [] else [ url_row u ]
  | None => []
  end.
Proof.
  unfold url_rows, rows_captioned, info_rows. select_in_render.
  by_cases_on_fields coreInfo inventoryItem.
Qed.

Lemma release_date_rows_render props coreInfo authorImageSrc inventoryItem :
  release_date_rows (render props coreInfo authorImageSrc inventoryItem) =
  match date_release (metadata (core coreInfo)) with
  | Some d => if String.eqb d "" then [] else [ release_date_row d ]
  | None => []
  end.
Proof.
  unfold release_date_rows, rows_captioned, info_rows. select_in_render.
  by_cases_on_fields coreInfo inventoryItem.
Qed.

Lemma checkboxes_render props coreInfo authorImageSrc inventoryItem :
  let fw := framework (core coreInfo) in
  checkboxes (render props coreInfo authorImageSrc inventoryItem) =
  [ (Some "Supports Sleep:", sleep_supported fw);
    (Some "Supports Dock:", supported (dock fw));
    (Some "Supports Dock Analog:", analog_output (dock fw));
    (Some "Supports Cartridges:",
     negb (cartridge_adapter (hardware fw) =? -1)) ].
Proof.
  unfold checkboxes, info_rows. select_in_render.
  by_cases_on_fields coreInfo inventoryItem.
Qed.

Lemma releases_panels_render props coreInfo authorImageSrc inventoryItem :
  releases_panels (render props coreInfo authorImageSrc inventoryItem) =
  match inventoryItem with
  | Some item =>
      if String.eqb (platform (repository item)) "github"
      then [ releases_panel item ] else []
  | None => []
  end.
Proof.
  unfold releases_panels. select_in_render.
  by_cases_on_fields coreInfo inventoryItem.
Qed.

Lemma last_section_dom pending props coreInfo authorImageSrc inventoryItem :
  option_map (fun l => List.last l VNull)
    (section_dom pending (render props coreInfo authorImageSrc inventoryItem)) =
  Some match inventoryItem with
       | Some item =>
           if String.eqb (platform (repository item)) "github"
           then releases_panel item else cartridge_row coreInfo
       | None => cartridge_row coreInfo
       end.
Proof.
  unfold section_dom, info_section. select_in_render.
  by_cases_on_fields coreInfo inventoryItem.
Qed.

(** C1. The cartridge-support checkbox is checked for every cartridge adapter
    value other than the sentinel -1, and unchecked for exactly -1. *)
Theorem cartridge_checkbox props coreInfo authorImageSrc inventoryItem :
  (cartridge_adapter (hardware (framework (core coreInfo))) <> -1 ->
   checks "Supports Cartridges:"
     (render props coreInfo authorImageSrc inventoryItem) = [true]) /\
  (cartridge_adapter (hardware (framework (core coreInfo))) = -1 ->
   checks "Supports Cartridges:"
     (render props coreInfo authorImageSrc inventoryItem) = [false]).
Proof.
  unfold checks. rewrite checkboxes_render. simpl.
  split; intros H.
  - apply Z.eqb_neq in H. now rewrite H.
  - now rewrite H.
Qed.

(** C4, as the code has it. A URL that is absent or the empty string gives no
    URL row; a URL that is not empty gives exactly one URL row, whose link
    shows that URL and leads to it; and the same holds of the release date
    row: none for an absent or empty date, one for a date that is not
    empty. *)
Theorem url_and_release_date_rows props coreInfo authorImageSrc inventoryItem :
  (url (metadata (core coreInfo)) = None \/
   url (metadata (core coreInfo)) = Some "" ->
   url_rows (render props coreInfo authorImageSrc inventoryItem) = []) /\
  (forall u, url (metadata (core coreInfo)) = Some u -> u <> "" ->
   url_rows (render props coreInfo authorImageSrc inventoryItem) =
     [ url_row u ]) /\
  (date_release (metadata (core coreInfo)) = None \/
   date_release (metadata (core coreInfo)) = Some "" ->
   release_date_rows (render props coreInfo authorImageSrc inventoryItem) = []) /\
  (forall d, date_release (metadata (core coreInfo)) = Some d -> d <> "" ->
   release_date_rows (render props coreInfo authorImageSrc inventoryItem) =
     [ release_date_row d ]).
Proof.
  rewrite url_rows_render, release_date_rows_render.
  repeat split.
  - intros [-> | ->]; reflexivity.
  - intros u -> Hu. apply String.eqb_neq in Hu. now rewrite Hu.
  - intros [-> | ->]; reflexivity.
  - intros d -> Hd. apply String.eqb_neq in Hd. now rewrite Hd.
Qed.

(** C5. The releases sub-panel is in the panel exactly when there is an
    inventory item whose repository platform is "github"; it is then the
    last thing the section shows.  Without an item, or with another
    platform, there is no such panel and nothing in its place: the section
    ends with the cartridge row. *)
Theorem releases_panel_iff_github pending props coreInfo authorImageSrc
    inventoryItem :
  (releases_panels (render props coreInfo authorImageSrc inventoryItem) <> [] <->
   exists item, inventoryItem = Some item /\
                platform (repository item) = "github") /\
  (forall item, inventoryItem = Some item ->
                platform (repository item) = "github" ->
   releases_panels (render props coreInfo authorImageSrc inventoryItem) =
     [ releases_panel item ] /\
   option_map (fun l => List.last l VNull)
     (section_dom pending (render props coreInfo authorImageSrc inventoryItem)) =
     Some (releases_panel item)) /\
  ((forall item, inventoryItem = Some item ->
                 platform (repository item) <> "github") ->
   releases_panels (render props coreInfo authorImageSrc inventoryItem) = [] /\
   option_map (fun l => List.last l VNull)
     (section_dom pending (render props coreInfo authorImageSrc inventoryItem)) =
     Some (cartridge_row coreInfo)).
Proof.
  rewrite releases_panels_render, last_section_dom.
  destruct inventoryItem as [item|]; cbv beta iota.
  - destruct (String.eqb (platform (repository item)) "github") eqn:E.
    + apply String.eqb_eq in E. split; [split|split].
      * intros _. exists item. split; [reflexivity | exact E].
      * discriminate.
      * intros i [= <-] _. split; reflexivity.
      * intros H. destruct (H item eq_refl E).
    + apply String.eqb_neq in E. split; [split|split].
      * intros H. destruct (H eq_refl).
      * intros (i & [= <-] & H). destruct (E H).
      * intros i [= <-] H. destruct (E H).
      * intros _. split; reflexivity.
  - split; [split|split].
    + intros H. destruct (H eq_refl).
    + intros (i & H & _). discriminate H.
    + intros i H. discriminate H.
    + intros _. split; reflexivity.
Qed.

(** C7. The panel has three capability checkboxes, whose states are the
    core's sleep-supported, dock-supported and dock analog-output flags in
    this order; its only other checkbox is the cartridge one. *)
Theorem capability_checkboxes props coreInfo authorImageSrc inventoryItem :
  exists rest,
    checkboxes (render props coreInfo authorImageSrc inventoryItem) =
    [ (Some "Supports Sleep:",
       sleep_supported (framework (core coreInfo)));
      (Some "Supports Dock:",
       supported (dock (framework (core coreInfo))));
      (Some "Supports Dock Analog:",
       analog_output (dock (framework (core coreInfo)))) ] ++ rest /\
    map fst rest = [ Some "Supports Cartridges:" ].
Proof.
  rewrite checkboxes_render. eexists. split; reflexivity.
Qed.

(** C9. A URL that is present but the empty string gives no URL row, and a
    release date that is present but the empty string gives no release date
    row: the test is the truthiness of the field. *)
Theorem empty_field_gives_no_row props coreInfo authorImageSrc inventoryItem :
  (url (metadata (core coreInfo)) = Some "" ->
   url_rows (render props coreInfo authorImageSrc inventoryItem) = []) /\
  (date_release (metadata (core coreInfo)) = Some "" ->
   release_date_rows (render props coreInfo authorImageSrc inventoryItem) = []).
Proof.
  rewrite url_rows_render, release_date_rows_render.
  split; intros ->; reflexivity.
Qed.

Lemma run_CoreInfo {W : Type} (h : surroundings W) (w : W) props :
  exists coreInfo authorImageSrc inventoryItem,
    run h (CoreInfo props) w =
    (render props coreInfo authorImageSrc inventoryItem,
     three_reads (coreName props) coreInfo authorImageSrc inventoryItem).
Proof.
  unfold CoreInfo, useRecoilValue, useInventoryItem.
  cbn [mbind hooks_mbind hooks_bind mret hooks_ret run].
  destruct (h _ (UseRecoilValue (CoreInfoSelectorFamily (coreName props))) w)
    as [coreInfo w1].
  destruct (h _ (UseRecoilValue (CoreAuthorImageSelectorFamily (coreName props))) w1)
    as [authorImageSrc w2].
  destruct (h _ (UseInventoryItem (coreName props)) w2) as [inventoryItem w3].
  now exists coreInfo, authorImageSrc, inventoryItem.
Qed.

(** C10. A render of the panel makes three requests, in whatever
    surroundings it runs: the core description, the author image and the
    inventory item of its core; it reads no atom, no clock and no random
    number, and what it returns is the tree of these three answers.  So two
    renders with the same props that get the same three answers return the
    same tree, however their surroundings differ otherwise. *)
Theorem CoreInfo_deterministic {W1 W2 : Type} (h1 : surroundings W1)
    (h2 : surroundings W2) (w1 : W1) (w2 : W2) props :
  (exists coreInfo authorImageSrc inventoryItem,
     log h1 (CoreInfo props) w1 =
       three_reads (coreName props) coreInfo authorImageSrc inventoryItem /\
     output h1 (CoreInfo props) w1 =
       render props coreInfo authorImageSrc inventoryItem) /\
  (exists coreInfo authorImageSrc inventoryItem,
     log h2 (CoreInfo props) w2 =
       three_reads (coreName props) coreInfo authorImageSrc inventoryItem /\
     output h2 (CoreInfo props) w2 =
       render props coreInfo authorImageSrc inventoryItem) /\
  (log h1 (CoreInfo props) w1 = log h2 (CoreInfo props) w2 ->
   output h1 (CoreInfo props) w1 = output h2 (CoreInfo props) w2).
Proof.
  unfold log, output.
  destruct (run_CoreInfo h1 w1 props) as (c1 & a1 & i1 & ->).
  destruct (run_CoreInfo h2 w2 props) as (c2 & a2 & i2 & ->).
  cbn [fst snd]. split; [|split].
  - now exists c1, a1, i1.
  - now exists c2, a2, i2.
  - unfold three_reads. intros [= -> -> ->]. reflexivity.
Qed.

End Panel.

Example sample_checkboxes :
  checkboxes (render sample_props (sample_core None None (-1)) "author.png" None) =
  [ (Some "Supports Sleep:", true); (Some "Supports Dock:", true);
    (Some "Supports Dock Analog:", false);
    (Some "Supports Cartridges:", false) ].
Proof. reflexivity. Qed.

Example sample_info_rows :
  map caption
    (info_rows (render sample_props
                  (sample_core (Some "https://example.org") (Some "2022-09-11") 0)
                  "author.png" (Some (sample_item "github")))) =
  map Some
    [ "Version:"; "Author:"; "URL:"; "Release Date:"; "Supports Sleep:";
      "Supports Dock:"; "Supports Dock Analog:"; "Supports Cartridges:" ].
Proof. reflexivity. Qed.

Example sample_empty_url_child :
  option_map (fun sec => nth 3 (children_of sec) VNull)
    (info_section (render sample_props (sample_core (Some "") None 0)
                     "author.png" None)) =
  Some (VStr "").
Proof. reflexivity. Qed.

Lemma cartridge_checkbox_witness :
  checks "Supports Cartridges:"
    (render sample_props (sample_core None None 0) "author.png" None) = [true] /\
  checks "Supports Cartridges:"
    (render sample_props (sample_core None None (-1)) "author.png" None) = [false].
Proof.
  split.
  - apply (proj1 (cartridge_checkbox sample_props (sample_core None None 0)
                    "author.png" None)).
    simpl. lia.
  - apply (proj2 (cartridge_checkbox sample_props (sample_core None None (-1))
                    "author.png" None)).
    reflexivity.
Defined.

(** C4 as the spec has it fails: a core whose URL is present, as the empty
    string, gets no URL row. *)
Lemma present_empty_url_has_no_row :
  url (metadata (core (sample_core (Some "") None 0))) <> None /\
  length (url_rows (render sample_props (sample_core (Some "") None 0)
                      "author.png" None)) = 0%nat.
Proof. split; [discriminate | reflexivity]. Qed.

Lemma url_and_release_date_rows_witness :
  url_rows (render sample_props (sample_core None (Some "") 0)
              "author.png" None) = [] /\
  url_rows (render sample_props
              (sample_core (Some "https://example.org") (Some "2022-09-11") 0)
              "author.png" None) = [ url_row "https://example.org" ] /\
  release_date_rows (render sample_props (sample_core None (Some "") 0)
                       "author.png" None) = [] /\
  release_date_rows (render sample_props
              (sample_core (Some "https://example.org") (Some "2022-09-11") 0)
              "author.png" None) = [ release_date_row "2022-09-11" ].
Proof.
  destruct (url_and_release_date_rows sample_props
              (sample_core None (Some "") 0) "author.png" None)
    as (H1 & _ & H3 & _).
  destruct (url_and_release_date_rows sample_props
              (sample_core (Some "https://example.org") (Some "2022-09-11") 0)
              "author.png" None)
    as (_ & H2 & _ & H4).
  split; [|split; [|split]].
  - apply H1. left. reflexivity.
  - apply H2; [reflexivity | discriminate].
  - apply H3. right. reflexivity.
  - apply H4; [reflexivity | discriminate].
Defined.

Lemma releases_panel_iff_github_witness :
  releases_panels (render sample_props (sample_core None None 0) "author.png"
                     (Some (sample_item "github"))) =
    [ releases_panel (sample_item "github") ] /\
  releases_panels (render sample_props (sample_core None None 0) "author.png"
                     (Some (sample_item "gitlab"))) = [] /\
  releases_panels (render sample_props (sample_core None None 0) "author.png"
                     None) = [].
Proof.
  split; [|split].
  - apply (proj1 (proj2 (releases_panel_iff_github (fun _ => false) sample_props
             (sample_core None None 0) "author.png"
             (Some (sample_item "github")))) (sample_item "github"));
      reflexivity.
  - apply (proj2 (proj2 (releases_panel_iff_github (fun _ => false) sample_props
             (sample_core None None 0) "author.png"
             (Some (sample_item "gitlab"))))).
    intros item [= <-]. discriminate.
  - apply (proj2 (proj2 (releases_panel_iff_github (fun _ => false) sample_props
             (sample_core None None 0) "author.png" None))).
    intros item. discriminate.
Defined.

Lemma empty_field_gives_no_row_witness :
  url_rows (render sample_props (sample_core (Some "") (Some "") 0)
              "author.png" None) = [] /\
  release_date_rows (render sample_props (sample_core (Some "") (Some "") 0)
                       "author.png" None) = [].
Proof.
  destruct (empty_field_gives_no_row sample_props
              (sample_core (Some "") (Some "") 0) "author.png" None)
    as [H1 H2].
  split; [apply H1 | apply H2]; reflexivity.
Defined.

Lemma CoreInfo_deterministic_witness :
  log (sample_surroundings 1 7) (CoreInfo sample_props) 0 =
    log (sample_surroundings 16 42) (CoreInfo sample_props) 1667000000000 /\
  output (sample_surroundings 1 7) (CoreInfo sample_props) 0 =
    output (sample_surroundings 16 42) (CoreInfo sample_props) 1667000000000.
Proof.
  assert (Hlog : log (sample_surroundings 1 7) (CoreInfo sample_props) 0 =
                 log (sample_surroundings 16 42) (CoreInfo sample_props)
                   1667000000000) by reflexivity.
  split; [exact Hlog|].
  exact (proj2 (proj2 (CoreInfo_deterministic (sample_surroundings 1 7)
                         (sample_surroundings 16 42) 0 1667000000000
                         sample_props)) Hlog).
Defined.

End CoreInfoFacts.

(** ** Properties of the invalidation counters *)

Module AtomsFacts.
Import Atoms.

Section Load.
Variables (t_fs t_inv t_cfg : Z).

Lemma key_atom_of_inj (c c' : counter) :
  key (atom_of t_fs t_inv t_cfg c) = key (atom_of t_fs t_inv t_cfg c') -> c = c'.
Proof. destruct c, c'; simpl; intros H; try reflexivity; discriminate H. Qed.

Lemma get_set_same (a : atom) (v : value) (s : store) : get a (set a v s) = v.
Proof. unfold get, set. now rewrite lookup_insert_eq. Qed.

Lemma get_set_other (a b : atom) (v : value) (s : store) :
  key a <> key b -> get b (set a v s) = get b s.
Proof. intros Hk. unfold get, set. now rewrite lookup_insert_ne. Qed.

(** C6. A bump of one of the three invalidation counters leaves it strictly
    greater than it was, and leaves the other two counters, and the other
    atoms, as they were. *)
Theorem bump_increases_one_counter (c : counter) (s s' : store) :
  bump t_fs t_inv t_cfg c s s' ->
  read t_fs t_inv t_cfg c s < read t_fs t_inv t_cfg c s' /\
  (forall c', c' <> c -> read t_fs t_inv t_cfg c' s' = read t_fs t_inv t_cfg c' s) /\
  (forall a, In a (others t_fs t_inv t_cfg c) -> get a s' = get a s).
Proof.
  intros [t Ht]. repeat split.
  - unfold read at 2. now rewrite get_set_same.
  - intros c' Hc. unfold read. rewrite get_set_other; [reflexivity|].
    intros Hk. apply Hc. symmetry. exact (key_atom_of_inj _ _ Hk).
  - intros a Ha. unfold others in Ha. apply filter_In in Ha as [_ Ha].
    apply get_set_other. intros Hk. rewrite Hk, String.eqb_refl in Ha.
    discriminate Ha.
Qed.

(** Every counter can be bumped in every store. *)
Lemma bump_possible (c : counter) (s : store) :
  exists s', bump t_fs t_inv t_cfg c s s'.
Proof.
  exists (set (atom_of t_fs t_inv t_cfg c)
            (Number (read t_fs t_inv t_cfg c s + 1)) s).
  apply bump_to. lia.
Qed.

(** A counter that was never set reads the clock value of the load. *)
Lemma read_unset (c : counter) :
  read t_fs t_inv t_cfg c ∅ =
  match c with FileSystem => t_fs | Inventory => t_inv | Config => t_cfg end.
Proof. unfold read, get. rewrite lookup_empty. now destruct c. Qed.

End Load.

Lemma bump_increases_one_counter_witness :
  bump 10 20 30 Inventory ∅ (set (atom_of 10 20 30 Inventory) (Number 25) ∅) /\
  read 10 20 30 Inventory ∅ <
    read 10 20 30 Inventory (set (atom_of 10 20 30 Inventory) (Number 25) ∅) /\
  read 10 20 30 Config (set (atom_of 10 20 30 Inventory) (Number 25) ∅) =
    read 10 20 30 Config ∅.
Proof.
  assert (Hb : bump 10 20 30 Inventory ∅
                 (set (atom_of 10 20 30 Inventory) (Number 25) ∅)).
  { apply bump_to. unfold read, get. rewrite lookup_empty. simpl. lia. }
  destruct (bump_increases_one_counter 10 20 30 Inventory _ _ Hb)
    as (H1 & H2 & _).
  split; [exact Hb|]. split; [exact H1|].
  apply H2. discriminate.
Defined.

End AtomsFacts.

(** ** More on the layout shell *)

Module LayoutMore.
Import JS JSFacts LayoutShell LayoutFacts.

Lemma last_cons {A : Type} (ls : list A) (l d : A) :
  List.last (l :: ls) d = List.last ls l.
Proof.
  revert l d. induction ls as [| a ls IH]; intros l d; [reflexivity|].
  change (List.last (l :: a :: ls) d) with (List.last (a :: ls) d).
  now rewrite (IH a d), (IH a l).
Qed.

Lemma filter_active_menu (s : string) (ls : list string) :
  List.filter active (map (menu_item s) ls) =
  map (menu_item s) (List.filter (String.eqb s) ls).
Proof.
  induction ls as [| l ls IH]; [reflexivity|].
  cbn [map List.filter]. rewrite active_menu_item, IH.
  now destruct (String.eqb s l).
Qed.

Lemma at_most_one_view (s : string) :
  (length (List.filter (String.eqb s) views) <= 1)%nat.
Proof.
  unfold views. cbn [List.filter].
  destruct (String.eqb s "Games") eqn:E1, (String.eqb s "Cores") eqn:E2,
           (String.eqb s "Screenshots") eqn:E3, (String.eqb s "Saves") eqn:E4;
    cbn [length]; try lia;
    repeat match goal with
           | H : String.eqb s _ = true |- _ => apply String.eqb_eq in H
           end; congruence.
Qed.

Lemma filter_eqb_absent (s : string) (ls : list string) :
  ~ In s ls -> List.filter (String.eqb s) ls = [].
Proof.
  induction ls as [| l ls IH]; intros Hs; [reflexivity|].
  cbn [List.filter]. destruct (String.eqb s l) eqn:E.
  - apply String.eqb_eq in E. destruct Hs. left. now symmetry.
  - apply IH. intros H. apply Hs. now right.
Qed.

(** In every state the menu shows the four labels in the order "Games",
    "Cores", "Screenshots", "Saves"; the React key of an entry is its label,
    and no two entries share a key. *)
Theorem menu_is_fixed (s : string) :
  map label (menu_items (Layout s)) = map Some views /\
  map key_of (menu_items (Layout s)) = map Some views /\
  List.NoDup (map key_of (menu_items (Layout s))).
Proof.
  rewrite menu_items_Layout.
  assert (Hk : map key_of (map (menu_item s) views) = map Some views)
    by reflexivity.
  split; [reflexivity|]. split; [exact Hk|].
  rewrite Hk. unfold views.
  repeat (constructor; [simpl; intuition discriminate|]).
  constructor.
Qed.

(** In every state the entries marked active are those whose label equals the
    state, so at most one is; in a state that is none of the labels, such as
    the first one, no entry is marked. *)
Theorem at_most_one_active (s : string) :
  map label (List.filter active (menu_items (Layout s))) =
    map Some (List.filter (String.eqb s) views) /\
  (length (List.filter active (menu_items (Layout s))) <= 1)%nat /\
  (~ In s views -> List.filter active (menu_items (Layout s)) = []).
Proof.
  rewrite menu_items_Layout, filter_active_menu.
  split; [|split].
  - rewrite map_map. apply map_ext. intros l. apply label_menu_item.
  - rewrite length_map. apply at_most_one_view.
  - intros Hs. now rewrite (filter_eqb_absent s views Hs).
Qed.

Lemma at_most_one_active_witness :
  ~ In initial_viewName views /\
  List.filter active (menu_items (Layout initial_viewName)) = [].
Proof.
  assert (Hs : ~ In initial_viewName views)
    by (simpl; intuition discriminate).
  split; [exact Hs|].
  exact (proj2 (proj2 (at_most_one_active initial_viewName)) Hs).
Defined.

(** After any sequence of clicks on menu labels the active view is the label
    clicked last; without a click it is what it was. *)
Theorem last_click_wins (ls : list string) (s : string) :
  Forall (fun l => In l views) ls ->
  clicks ls s = List.last ls s.
Proof.
  intros Hls. revert s. induction Hls as [| l ls Hl _ IH]; intros s.
  - reflexivity.
  - unfold clicks in *. cbn [fold_left].
    now rewrite (click_view l s Hl), IH, last_cons.
Qed.

Lemma last_click_wins_witness :
  Forall (fun l => In l views) ["Saves"; "Screenshots"; "Games"] /\
  clicks ["Saves"; "Screenshots"; "Games"] "Cores" = "Games".
Proof.
  assert (H : Forall (fun l => In l views) ["Saves"; "Screenshots"; "Games"])
    by (repeat constructor; simpl; tauto).
  split; [exact H|].
  exact (last_click_wins ["Saves"; "Screenshots"; "Games"] "Cores" H).
Defined.

(** What the content region shows, in every state: nothing unless the state
    is "Screenshots"; in that state the loader alone while the screenshots
    view is waiting for its data, and the screenshots view alone once it is
    not. *)
Theorem content_region_shows (pending : string -> bool) (s : string) :
  option_map (dom_children pending) (content_region (Layout s)) =
  Some (if String.eqb s "Screenshots"
        then [ if pending "Screenshots"
               then VElem (Comp "Loader") [] []
               else VElem (Comp "Screenshots") [] [] ]
        else []).
Proof.
  rewrite content_region_Layout.
  destruct (String.eqb s "Screenshots"); [|reflexivity].
  cbn. now destruct (pending "Screenshots").
Qed.

(** From any state one click leads to each of the four labels and to nothing
    else; so the reachable states are exactly the empty string and the four
    labels. *)
Theorem reachable_iff (s s' : string) :
  (step s s' <-> In s' views) /\
  (reachable s <-> s = initial_viewName \/ In s views).
Proof.
  split; split.
  - apply step_views.
  - intros Hin. rewrite <- (click_view s' s Hin). now apply click_is_step.
  - induction 1 as [| r r' _ _ Hstep]; [now left | right].
    exact (step_views _ _ Hstep).
  - intros [-> | Hin]; [apply reach_initial|].
    apply (reach_step initial_viewName); [apply reach_initial|].
    rewrite <- (click_view s initial_viewName Hin). now apply click_is_step.
Qed.

(** The only function values in the rendered tree are the four click
    handlers, one per label and in the order of the menu: nothing else in
    the tree can change the state. *)
Theorem only_menu_handlers (s : string) :
  functions (Layout s) = map SetViewName views.
Proof.
  unfold Layout, views, menu_item. simpl map.
  destruct (String.eqb s "Screenshots"); reflexivity.
Qed.

End LayoutMore.

(** ** More on the core info panel *)

Module CoreInfoMore.
Import JS JSFacts CoreInfoPanel CoreInfoFacts.

Section Panel.
Context {F : Type}.
Implicit Types (props : @CoreInfoProps F) (coreInfo : CoreInfoJSON)
  (authorImageSrc : string) (inventoryItem : option InventoryItem).

(** An array of childless elements that [P] accepts contributes them all. *)
Lemma filter_elements_map_all (P : val F -> bool) (f : string -> val F)
    (ids : list string) :
  (forall id, elements (f id) = [f id]) ->
  (forall id, P (f id) = true) ->
  List.filter P (flat_map elements (map f ids)) = map f ids.
Proof.
  intros Hel HP. induction ids as [| id ids IH]; simpl; [reflexivity|].
  rewrite Hel. simpl. now rewrite HP, IH.
Qed.

(** The function values of a tree whose root has four children, the third of
    them an array. *)
Lemma functions_split (root a b sec : val F) (t : tag)
    (ps : list (string * val F)) (imgs : list (val F)) :
  root = VElem t ps [a; b; VArr imgs; sec] ->
  functions root =
  flat_map (fun p => functions (snd p)) ps ++
  functions a ++ functions b ++ flat_map functions imgs ++ functions sec.
Proof.
  intros ->.
  change (functions (VElem t ps [a; b; VArr imgs; sec]))
    with ((fix in_fields (l : list (string * val F)) : list F :=
             match l with
             | [] => []
             | p :: l' => (match p with (_, x) => functions x end) ++ in_fields l'
             end) ps ++
          functions a ++ functions b ++ flat_map functions imgs ++
          functions sec ++ []).
  rewrite app_nil_r. f_equal.
  induction ps as [| [k x] ps IH]; [reflexivity|]. simpl. now rewrite IH.
Qed.

Lemma functions_map_none (f : string -> val F) (ids : list string) :
  (forall id, functions (f id) = []) ->
  flat_map functions (map f ids) = [].
Proof.
  intros Hf. induction ids as [| id ids IH]; simpl; [reflexivity|].
  now rewrite Hf, IH.
Qed.

Ltac split_render :=
  match goal with
  | |- context [List.filter ?P (elements (render ?p ?ci ?img ?inv))] =>
      rewrite (filter_elements_split P (render p ci img inv) _ _ _ _ _ _ eq_refl)
  end.

Ltac without_images :=
  split_render; rewrite filter_elements_map by (intros; reflexivity).

Ltac by_cases coreInfo inventoryItem :=
  let pl := fresh "pl" in
  let Hpl := fresh "Hpl" in
  let u := fresh "u" in
  let dr := fresh "dr" in
  destruct coreInfo as [[[? ? ? ? u dr] [? [? ?] [?]]]];
  destruct inventoryItem as [[[pl]]|];
  [destruct (String.eqb pl "github") eqn:Hpl|];
  destruct u as [[|? ?]|], dr as [[|? ?]|];
  simpl; try rewrite Hpl; try reflexivity.

Lemma shown_field_truthy (field : option string) :
  truthy (@of_opt_string F field) = shown_field field.
Proof. now destruct field. Qed.

Lemma platform_images_render props coreInfo authorImageSrc inventoryItem :
  comps "PlatformImage" (render props coreInfo authorImageSrc inventoryItem) =
  map platform_image (platform_ids (metadata (core coreInfo))).
Proof.
  unfold comps. split_render.
  rewrite filter_elements_map_all by (intros; reflexivity).
  by_cases coreInfo inventoryItem; now rewrite app_nil_r.
Qed.

Lemma info_row_captions props coreInfo authorImageSrc inventoryItem :
  map caption (info_rows (render props coreInfo authorImageSrc inventoryItem)) =
  map Some (captions_of (metadata (core coreInfo))).
Proof.
  unfold info_rows. without_images.
  by_cases coreInfo inventoryItem.
Qed.

Lemma NoDup_map_Some {A : Type} (l : list A) :
  List.NoDup (map Some l) <-> List.NoDup l.
Proof.
  split; [apply List.NoDup_map_inv|].
  induction 1 as [| x l Hx _ IH]; simpl; constructor; [|exact IH].
  intros Hin. apply in_map_iff in Hin as (y & [= ->] & Hy). exact (Hx Hy).
Qed.

Lemma inputs_render props coreInfo authorImageSrc inventoryItem :
  hosts "input" (render props coreInfo authorImageSrc inventoryItem) =
  map checkbox
    [ sleep_supported (framework (core coreInfo));
      supported (dock (framework (core coreInfo)));
      analog_output (dock (framework (core coreInfo)));
      negb (cartridge_adapter (hardware (framework (core coreInfo))) =? -1) ].
Proof.
  unfold hosts. without_images.
  by_cases coreInfo inventoryItem.
Qed.

(** The panel shows one platform image per platform id of the core, in the
    order of the ids, and none for a core without platform ids; each image
    has its id as [platformId] and as React key, so the keys are distinct
    exactly when the ids are. *)
Theorem platform_images_follow_ids props coreInfo authorImageSrc inventoryItem :
  comps "PlatformImage" (render props coreInfo authorImageSrc inventoryItem) =
    map platform_image (platform_ids (metadata (core coreInfo))) /\
  map platformId_of
    (comps "PlatformImage" (render props coreInfo authorImageSrc inventoryItem)) =
    map Some (platform_ids (metadata (core coreInfo))) /\
  map key_of
    (comps "PlatformImage" (render props coreInfo authorImageSrc inventoryItem)) =
    map Some (platform_ids (metadata (core coreInfo))) /\
  (List.NoDup
     (map key_of
        (comps "PlatformImage"
           (render props coreInfo authorImageSrc inventoryItem))) <->
   List.NoDup (platform_ids (metadata (core coreInfo)))).
Proof.
  rewrite platform_images_render, !map_map.
  assert (Hk : map (fun id => key_of (@platform_image F id))
                 (platform_ids (metadata (core coreInfo))) =
               map Some (platform_ids (metadata (core coreInfo))))
    by (apply map_ext; reflexivity).
  split; [reflexivity|]. split; [apply map_ext; reflexivity|].
  split; [exact Hk|]. rewrite Hk. apply NoDup_map_Some.
Qed.

(** The rows of the panel, top to bottom: version, author, the URL row when
    the URL is shown, the release date row when the date is shown, then the
    four checkbox rows.  So there are at least six rows and at most eight. *)
Theorem info_rows_in_order props coreInfo authorImageSrc inventoryItem :
  map caption (info_rows (render props coreInfo authorImageSrc inventoryItem)) =
    map Some (captions_of (metadata (core coreInfo))) /\
  (6 <= length (info_rows (render props coreInfo authorImageSrc inventoryItem))
     <= 8)%nat.
Proof.
  pose proof (info_row_captions props coreInfo authorImageSrc inventoryItem) as H.
  split; [exact H|].
  apply (f_equal (@length _)) in H. rewrite !length_map in H. rewrite H.
  unfold captions_of.
  destruct (shown_field (url (metadata (core coreInfo)))),
           (shown_field (date_release (metadata (core coreInfo))));
    simpl; lia.
Qed.

(** The only function value in the whole rendered panel is the [onBack] it
    was given, and it occurs once: as the [onClick] of the one control, a
    back button with the text "Back to list", that the panel passes to
    [<Controls>]. *)
Theorem only_callback_is_onBack props coreInfo authorImageSrc inventoryItem :
  functions (render props coreInfo authorImageSrc inventoryItem) =
    [ onBack props ] /\
  comps "Controls" (render props coreInfo authorImageSrc inventoryItem) =
    [ VElem (Comp "Controls") [ ("controls", VArr [ back_control props ]) ] [] ].
Proof.
  split.
  - rewrite (functions_split (render props coreInfo authorImageSrc inventoryItem)
               _ _ _ _ _ _ eq_refl).
    rewrite functions_map_none by (intros; reflexivity).
    by_cases coreInfo inventoryItem.
  - unfold comps. without_images.
    by_cases coreInfo inventoryItem.
Qed.

(** The panel has exactly four [<input>] elements; each is a checkbox and
    each is read-only. *)
Theorem inputs_are_readonly_checkboxes props coreInfo authorImageSrc
    inventoryItem :
  length (hosts "input" (render props coreInfo authorImageSrc inventoryItem)) =
    4%nat /\
  Forall (fun e => is_checkbox e = true /\
                   prop "readOnly" (props_of e) = Some (VBool true))
    (hosts "input" (render props coreInfo authorImageSrc inventoryItem)).
Proof.
  rewrite inputs_render. split; [reflexivity|].
  repeat constructor.
Qed.

(** The panel has one heading, which shows the short name of the core, and
    one paragraph, which shows its description. *)
Theorem title_and_description props coreInfo authorImageSrc inventoryItem :
  hosts "h3" (render props coreInfo authorImageSrc inventoryItem) =
    [ VElem (Host "h3") [ ("className", VStr "core-info__title") ]
        [ VStr (shortname (metadata (core coreInfo))) ] ] /\
  hosts "p" (render props coreInfo authorImageSrc inventoryItem) =
    [ VElem (Host "p") [] [ VStr (description (metadata (core coreInfo))) ] ].
Proof.
  split; unfold hosts; without_images; by_cases coreInfo inventoryItem.
Qed.

(** Every panel has exactly one version row and one author row.  The version
    row holds the [<Version>] of the core name the panel was given; the
    author row holds the panel's only [<img>], whose source is the author
    image source, followed by the author's name. *)
Theorem version_and_author_rows props coreInfo authorImageSrc inventoryItem :
  rows_captioned "Version:"
    (render props coreInfo authorImageSrc inventoryItem) =
    [ info_row
        [ strong "Version:";
          VElem (Comp "Version") [ ("coreName", VStr (coreName props)) ] [] ] ] /\
  rows_captioned "Author:"
    (render props coreInfo authorImageSrc inventoryItem) =
    [ info_row
        [ strong "Author:";
          VElem (Host "div") [ ("className", VStr "core-info__author-tag") ]
            [ VElem (Host "img") [ ("src", VStr authorImageSrc) ] [];
              VStr (author (metadata (core coreInfo))) ] ] ] /\
  hosts "img" (render props coreInfo authorImageSrc inventoryItem) =
    [ VElem (Host "img") [ ("src", VStr authorImageSrc) ] [] ].
Proof.
  split; [|split]; unfold rows_captioned, info_rows, hosts; without_images;
    by_cases coreInfo inventoryItem.
Qed.

(** What a part of the panel depends on.  The URL row, the release date row,
    the checkboxes and the platform images are the same for every core name,
    callback, author image and inventory item; the releases sub-panel is the
    same for every core description, core name, callback and author
    image. *)
Theorem parts_depend_on_their_input_only props props' coreInfo coreInfo'
    authorImageSrc authorImageSrc' inventoryItem inventoryItem' :
  url_rows (render props coreInfo authorImageSrc inventoryItem) =
    url_rows (render props' coreInfo authorImageSrc' inventoryItem') /\
  release_date_rows (render props coreInfo authorImageSrc inventoryItem) =
    release_date_rows (render props' coreInfo authorImageSrc' inventoryItem') /\
  checkboxes (render props coreInfo authorImageSrc inventoryItem) =
    checkboxes (render props' coreInfo authorImageSrc' inventoryItem') /\
  comps "PlatformImage" (render props coreInfo authorImageSrc inventoryItem) =
    comps "PlatformImage"
      (render props' coreInfo authorImageSrc' inventoryItem') /\
  releases_panels (render props coreInfo authorImageSrc inventoryItem) =
    releases_panels (render props' coreInfo' authorImageSrc' inventoryItem).
Proof.
  rewrite !url_rows_render, !release_date_rows_render, !checkboxes_render,
    !platform_images_render, !releases_panels_render.
  repeat split.
Qed.

End Panel.
End CoreInfoMore.

(** ** More on the atoms *)

Module AtomsMore.
Import Atoms AtomsFacts.

Section Load.
Variables (t_fs t_inv t_cfg : Z).

(** The five atoms have pairwise distinct keys.  So a value written to one of
    them is the value read back, and the write leaves each of the other four
    as it was. *)
Theorem atoms_are_independent (a b : atom) (v : value) (s : store) :
  In a (all_atoms t_fs t_inv t_cfg) ->
  In b (all_atoms t_fs t_inv t_cfg) ->
  List.NoDup (map key (all_atoms t_fs t_inv t_cfg)) /\
  get a (set a v s) = v /\
  (a <> b -> get b (set a v s) = get b s).
Proof.
  intros Ha Hb. split; [|split].
  - unfold all_atoms. simpl.
    repeat (constructor; [simpl; intuition discriminate|]). constructor.
  - apply get_set_same.
  - intros Hab. apply get_set_other. intros Hk. apply Hab.
    unfold all_atoms in Ha, Hb. simpl in Ha, Hb.
    destruct Ha as [<-|[<-|[<-|[<-|[<-|[]]]]]];
      destruct Hb as [<-|[<-|[<-|[<-|[<-|[]]]]]];
      first [reflexivity | discriminate Hk].
Qed.

End Load.

Lemma atoms_are_independent_witness :
  get (pocketPathAtom) (set pocketPathAtom (Path (Some "/Volumes/POCKET")) ∅) =
    Path (Some "/Volumes/POCKET") /\
  get (configInvalidationAtom 3)
      (set pocketPathAtom (Path (Some "/Volumes/POCKET")) ∅) =
    get (configInvalidationAtom 3) ∅.
Proof.
  assert (Ha : In pocketPathAtom (all_atoms 1 2 3)) by (simpl; tauto).
  assert (Hb : In (configInvalidationAtom 3) (all_atoms 1 2 3))
    by (simpl; tauto).
  destruct (atoms_are_independent 1 2 3 pocketPathAtom
              (configInvalidationAtom 3) (Path (Some "/Volumes/POCKET")) ∅
              Ha Hb) as (_ & H1 & H2).
  split; [exact H1|]. apply H2. discriminate.
Defined.

End AtomsMore.
